(** * otelmetricsecho: the request-metrics middleware of [metrics.go]

    A shallow embedding of [metrics.go] and of the few library functions its
    behaviour depends on ([utf8.ValidString], [strings.ToValidUTF8],
    [errors.As], the attribute constructors of [semconv] v1.23.0), followed by
    the properties of the middleware.

    Conventions.
    - Go's [string] is a sequence of bytes: Rocq's [string], whose characters
      are the 256 values of [ascii]; [len] is the byte count.
    - Go's [int] is taken as on the 64-bit platforms, where it has the range
      of [int64]: [Z] with the wrap-around of two's complement written out
      ([int_wrap]).
    - Go's maps are [gmap]s; a [range] loop visits the entries of the map in
      an order the language leaves open, so the loops take the visiting order
      as a list that is a permutation of the entries.
    - A nil pointer dereference is the outcome [Panic]. *)

From Stdlib Require Import ZArith QArith Lia String Ascii List Permutation Sorted.
From stdpp Require Import base option list gmap strings.

Local Open Scope string_scope.
Local Open Scope Z_scope.

(** ** Machine integers *)

Definition int_wrap (z : Z) : Z := (z + 2 ^ 63) mod 2 ^ 64 - 2 ^ 63.

Definition int_add (a b : Z) : Z := int_wrap (a + b).

Definition in_int (z : Z) : Prop := - 2 ^ 63 <= z < 2 ^ 63.

(** [len(s)] of a Go string. *)
Definition len (s : string) : Z := Z.of_nat (String.length s).

(** ** Outcomes of code that may dereference nil *)

Inductive Result (A : Type) : Type :=
  | Ok (a : A)
  | Panic.
Arguments Ok {A} a.
Arguments Panic {A}.

(** ** [net/url] and [net/http]: the parts of a request the package reads *)

Module url.
Record URL : Type := { Path : string }.
End url.

Module context.
(** A [context.Context] is only passed on to the instruments. *)
Definition Context : Type := nat.
End context.

Module http.
Definition StatusOK : Z := 200.
Definition StatusInternalServerError : Z := 500.

Record Request : Type := {
  URL : option url.URL;              (* *url.URL, nil is [None] *)
  Method : string;
  Proto : string;
  Header : gmap string (list string);
  Host : string;
  ContentLength : Z;                 (* int64; -1 is unknown *)
  Context : context.Context
}.
End http.

(** ** [computeApproximateRequestSize] *)

(** The inner loop [for _, value := range values { s += len(value) }]. *)
Definition addValues (s : Z) (values : list string) : Z :=
  fold_left (fun s value => int_add s (len value)) values s.

(** The body of [for name, values := range r.Header], for one entry. *)
Definition addHeader (s : Z) (entry : string * list string) : Z :=
  addValues (int_add s (len entry.1)) entry.2.

(** [computeApproximateRequestSize] with the header entries visited in the
    order [entries]. *)
Definition computeApproximateRequestSizeIn
    (entries : list (string * list string)) (r : http.Request) : Z :=
  let s := 0 in
  let s := match http.URL r with
           | Some u => len (url.Path u)
           | None => s
           end in
  let s := int_add s (len (http.Method r)) in
  let s := int_add s (len (http.Proto r)) in
  let s := fold_left addHeader entries s in
  let s := int_add s (len (http.Host r)) in
  let s := if http.ContentLength r =? -1 then s
           else int_add s (int_wrap (http.ContentLength r)) in
  s.

Definition computeApproximateRequestSize (r : http.Request) : Z :=
  computeApproximateRequestSizeIn (map_to_list (http.Header r)) r.

(** *** The sum the function approximates, in unbounded integers *)

Definition valuesLen (values : list string) : Z :=
  foldr (fun value n => len value + n) 0 values.

Definition headersLen (entries : list (string * list string)) : Z :=
  foldr (fun entry n => len entry.1 + valuesLen entry.2 + n) 0 entries.

Definition pathLen (r : http.Request) : Z :=
  match http.URL r with
  | Some u => len (url.Path u)
  | None => 0
  end.

(** What the declared content length adds to the size. *)
Definition contentLengthPart (r : http.Request) : Z :=
  if http.ContentLength r =? -1 then 0 else http.ContentLength r.

Definition requestSizeSum (r : http.Request) : Z :=
  pathLen r + len (http.Method r) + len (http.Proto r)
  + headersLen (map_to_list (http.Header r)) + len (http.Host r)
  + contentLengthPart r.

(** ** [unicode/utf8]: well-formed UTF-8

    The package sanitises the route with [strings.ToValidUTF8]; what "valid
    text" means is fixed by [utf8.ValidString].  Both are functions of Go's
    library; they are embedded here after the library's code, over the byte
    values [N_of_ascii]. *)

Module utf8.
Local Open Scope N_scope.

Definition byte (c : ascii) : N := N_of_ascii c.

Definition RuneSelf : N := 128.     (* 0x80 *)
Definition locb : N := 128.         (* 0b10000000 *)
Definition hicb : N := 191.         (* 0b10111111 *)

(** An entry of the table [first]: [as_] for an ASCII byte, [xx] for a
    byte that starts no sequence, otherwise the size of the sequence and
    the range [acceptRanges] allows for its second byte. *)
Inductive firstInfo : Type :=
  | as_
  | xx
  | lead (size : nat) (lo hi : N).

Definition first (c : ascii) : firstInfo :=
  let b := byte c in
  if b <? 128 then as_                         (* 0x00-0x7F *)
  else if b <? 194 then xx                     (* 0x80-0xC1 *)
  else if b <? 224 then lead 2 locb hicb       (* 0xC2-0xDF *)
  else if b =? 224 then lead 3 160 hicb        (* 0xE0: 0xA0-0xBF *)
  else if b <? 237 then lead 3 locb hicb       (* 0xE1-0xEC *)
  else if b =? 237 then lead 3 locb 159        (* 0xED: 0x80-0x9F *)
  else if b <? 240 then lead 3 locb hicb       (* 0xEE-0xEF *)
  else if b =? 240 then lead 4 144 hicb        (* 0xF0: 0x90-0xBF *)
  else if b <? 244 then lead 4 locb hicb       (* 0xF1-0xF3 *)
  else if b =? 244 then lead 4 locb 143        (* 0xF4: 0x80-0x8F *)
  else xx.                                     (* 0xF5-0xFF *)

(** [c < lo || hi < c], for the byte at an index known to exist. *)
Definition outside (lo hi : N) (c : option ascii) : bool :=
  match c with
  | Some c => (byte c <? lo) || (hi <? byte c)
  | None => true
  end.

(** [s[n:]] and [s[:n]]. *)
Fixpoint sliceFrom (n : nat) (s : string) : string :=
  match n, s with
  | S n', String _ rest => sliceFrom n' rest
  | _, _ => s
  end.

Fixpoint sliceTo (n : nat) (s : string) : string :=
  match n, s with
  | S n', String c rest => String c (sliceTo n' rest)
  | _, _ => EmptyString
  end.

(** The loop of [ValidString] from index [i], on the rest [s[i:]] of the
    string; every round advances [i], so [fuel] counts the rounds left. *)
Fixpoint validLoop (fuel : nat) (s : string) : bool :=
  match s with
  | EmptyString => true
  | String si rest =>
      match fuel with
      | O => false
      | S fuel' =>
          if byte si <? RuneSelf then validLoop fuel' rest
          else
            match first si with
            | lead size lo hi =>
                if (String.length s <? size)%nat then false
                else if outside lo hi (String.get 1 s) then false
                else if (size =? 2)%nat then validLoop fuel' (sliceFrom size s)
                else if outside locb hicb (String.get 2 s) then false
                else if (size =? 3)%nat then validLoop fuel' (sliceFrom size s)
                else if outside locb hicb (String.get 3 s) then false
                else validLoop fuel' (sliceFrom size s)
            | _ => false
            end
      end
  end.

Definition ValidString (s : string) : bool := validLoop (String.length s) s.

(** The size [DecodeRuneInString] returns: 0 on the empty string, 1 for an
    ASCII byte and for a byte that starts no well-formed sequence
    (the rune is then [RuneError]), else the size of the sequence. *)
Definition DecodeRuneInStringSize (s : string) : nat :=
  match s with
  | EmptyString => 0
  | String s0 _ =>
      match first s0 with
      | lead sz lo hi =>
          if (String.length s <? sz)%nat then 1
          else if outside lo hi (String.get 1 s) then 1
          else if (sz <=? 2)%nat then 2
          else if outside locb hicb (String.get 2 s) then 1
          else if (sz <=? 3)%nat then 3
          else if outside locb hicb (String.get 3 s) then 1
          else 4
      | _ => 1
      end
  end%nat.
End utf8.

(** ** [strings.ToValidUTF8] *)

Module strings.
(** The replacing loop of [ToValidUTF8] on the rest [s[i:]] of the string:
    an ASCII byte and a well-formed sequence are copied, a run of bytes
    that belong to no well-formed sequence is replaced by one
    [replacement].  (The library first copies the longest prefix without
    such a byte unchanged, which this loop does as well.) *)
Fixpoint replaceLoop (fuel : nat) (invalid : bool) (s replacement : string)
    : string :=
  match fuel, s with
  | S fuel', String c rest =>
      if (utf8.byte c <? utf8.RuneSelf)%N
      then String c (replaceLoop fuel' false rest replacement)
      else
        let wid := utf8.DecodeRuneInStringSize s in
        if (wid =? 1)%nat
        then
          if invalid then replaceLoop fuel' true rest replacement
          else replacement ++ replaceLoop fuel' true rest replacement
        else
          utf8.sliceTo wid s
            ++ replaceLoop fuel' false (utf8.sliceFrom wid s) replacement
  | _, _ => EmptyString
  end%string.

Definition ToValidUTF8 (s replacement : string) : string :=
  replaceLoop (String.length s) false s replacement.
End strings.

(** The replacement string of the middleware, U+FFFD: the bytes EF BF BD. *)
Definition replacementChar : string :=
  String (ascii_of_N 239) (String (ascii_of_N 191) (String (ascii_of_N 189) "")).

(** ** Errors

    A Go [error] is an interface value; [None] is nil.  The errors a handler
    returns are plain errors, errors that wrap another one ([%w]), and
    [*echo.HTTPError], which carries a status code and unwraps to its
    [Internal] error. *)

Inductive error : Type :=
  | errorString (s : string)
  | wrapError (msg : string) (err : error)
  | httpError (he : HTTPError)
with HTTPError : Type :=
  | NewHTTPError (Code : Z) (Message : string) (Internal : option error).

Definition Code (he : HTTPError) : Z :=
  match he with NewHTTPError code _ _ => code end.

Module errors.
(** [errors.As(err, &httpError)] for a target of type [*echo.HTTPError]:
    the first error of the chain of [err] that is an [*echo.HTTPError]. *)
Fixpoint As (err : error) : option HTTPError :=
  match err with
  | errorString _ => None
  | wrapError _ err' => As err'
  | httpError he => Some he
  end.
End errors.

(** ** [echo]: what the middleware reads of a request context *)

Module echo.
Record Response : Type := {
  Status : Z;                      (* int *)
  Size : Z                         (* int64 *)
}.

Record Context : Type := {
  Request : http.Request;          (* c.Request() *)
  Path : string;                   (* c.Path(): the matched route *)
  Response_ : Response;            (* c.Response() *)
  Scheme : string                  (* c.Scheme() *)
}.
End echo.

(** ** [attribute] and [semconv] v1.23.0 *)

Module attribute.
Inductive Value : Type :=
  | STRING (s : string)
  | INT64 (z : Z).

Record KeyValue : Type := { Key : string; Value_ : Value }.

Definition String (k v : string) : KeyValue := {| Key := k; Value_ := STRING v |}.
Definition Int (k : string) (v : Z) : KeyValue := {| Key := k; Value_ := INT64 v |}.
End attribute.

Module semconv.
Definition ServiceNameKey : string := "service.name".
Definition HTTPRouteKey : string := "http.route".
Definition HTTPRequestMethodKey : string := "http.request.method".
Definition HostNameKey : string := "host.name".
Definition HTTPStatusCodeKey : string := "http.status_code".
Definition HTTPResponseStatusCodeKey : string := "http.response.status_code".

Definition ServiceName (val : string) := attribute.String ServiceNameKey val.
Definition HTTPRoute (val : string) := attribute.String HTTPRouteKey val.
Definition HostName (val : string) := attribute.String HostNameKey val.
Definition HTTPResponseStatusCode (val : Z) :=
  attribute.Int HTTPResponseStatusCodeKey val.
End semconv.

(** ** [time] *)

Module time.
Definition Time : Type := Z.        (* an instant, in nanoseconds *)
Definition Duration : Type := Z.    (* int64 nanoseconds *)
Definition Second : Duration := 1000000000.

(** [t.Sub(u)]: the difference, kept within the range of [Duration]. *)
Definition Sub (t u : Time) : Duration :=
  Z.max (- 2 ^ 63) (Z.min (2 ^ 63 - 1) (t - u)).
End time.

(** ** [metric]: instruments and what they are given

    A [float64] is kept as the expression that produced it. *)

Inductive float64 : Type :=
  | float64_of_int (z : Z)
  | float64_div (x y : float64).

Module metric.
Record Instrument : Type := {
  Name : string;
  Description : string;
  ExplicitBucketBoundaries : option (list Q)
}.

(** One call of [Add] on a counter or of [Record] on a histogram. *)
Inductive Measurement : Type :=
  | Add (counter : Instrument) (ctx : context.Context) (incr : Z)
        (attrs : list attribute.KeyValue)
  | Record_ (histogram : Instrument) (ctx : context.Context)
        (value : float64) (attrs : list attribute.KeyValue).

(** A [Meter] hands out instruments, given a name, a description and
    (for a histogram) bucket boundaries; creating one may fail, and which
    instrument comes with the error is the meter's business. *)
Record Meter : Type := {
  Int64Counter :
    string -> string -> Instrument * option error;
  Float64Histogram :
    string -> string -> option (list Q) -> Instrument * option error
}.
End metric.

(** ** Constants of the package *)

Definition bKB : Q := inject_Z (Z.shiftl 1 (10 * 1)).
Definition bMB : Q := inject_Z (Z.shiftl 1 (10 * 2)).

Definition defaultServiceName : string := "echo".
Definition meterName : string := "otel_metrics_echo".

Definition metricHTTPRequestsTotal : string := "requests_total".
Definition metricHTTPRequestDurationSeconds : string := "request_duration_seconds".
Definition metricHTTPResponseSizeBytes : string := "response_size_bytes".
Definition metricHTTPRequestSizeBytes : string := "request_size_bytes".

Definition sizeBuckets : list Q :=
  [1.0 * bKB; 2.0 * bKB; 5.0 * bKB; 10.0 * bKB; 100 * bKB; 500 * bKB;
   1.0 * bMB; 2.5 * bMB; 5.0 * bMB; 10.0 * bMB]%Q.

(** ** The state a request is served in

    Serving a request changes the request context (the handler writes the
    response), lets time pass and reaches the instruments.  [sink] is what
    the instruments have been given so far, oldest first; [labelCalls] is the
    list of the calls of label functions made so far, oldest first. *)

Record LabelCall : Type := {
  callKey : string;                  (* the key the function is configured under *)
  callContext : echo.Context;        (* its first argument, as it was then *)
  callErr : option error             (* its second argument *)
}.

Record World : Type := {
  ctx : echo.Context;
  now : time.Time;
  sink : list metric.Measurement;
  labelCalls : list LabelCall
}.

(** Computations in a world that may panic. *)
Definition M (A : Type) : Type := World -> Result (A * World).

Definition ret {A} (a : A) : M A := fun w => Ok (a, w).

Definition bind {A B} (m : M A) (k : A -> M B) : M B :=
  fun w => match m w with
           | Ok (a, w') => k a w'
           | Panic => Panic
           end.

#[global] Instance M_ret : MRet M := @ret.
#[global] Instance M_bind : MBind M := fun A B k m => bind m k.

(** [c]: the request context, as it is now. *)
Definition c : M echo.Context := fun w => Ok (ctx w, w).

(** [instrument.Add(ctx, incr, attributes)] and
    [instrument.Record(ctx, value, attributes)]. *)
Definition emit (m : metric.Measurement) : M unit :=
  fun w => Ok (tt, {| ctx := ctx w; now := now w;
                      sink := (sink w ++ [m])%list; labelCalls := labelCalls w |}).

(** A call of a label function is noted in [labelCalls]. *)
Definition noteCall (call : LabelCall) : M unit :=
  fun w => Ok (tt, {| ctx := ctx w; now := now w;
                      sink := sink w; labelCalls := (labelCalls w ++ [call])%list |}).

(** ** Configuration *)

(** [echo.HandlerFunc]: a handler returns its error and leaves the world
    changed. *)
Definition HandlerFunc : Type := M (option error).

(** [middleware.Skipper] and [LabelValueFunc] read the context. *)
Definition Skipper : Type := echo.Context -> bool.
Definition LabelValueFunc : Type := echo.Context -> option error -> string.

Record MiddlewareConfig : Type := {
  Skipper_ : option Skipper;                   (* nil is [None] *)
  ServiceName : string;
  LabelFuncs : gmap string LabelValueFunc;
  timeNow : option (World -> time.Time);       (* nil is [None] *)
  DoNotUseRequestPathFor404 : bool
}.

(** [time.Now]. *)
Definition time_Now : World -> time.Time := now.

(** The order in which a [range] over [LabelFuncs] visits the entries. *)
Definition RangeOrder : Type := list (string * LabelValueFunc).

(** [echo.MiddlewareFunc]; the handler it returns also takes the order of
    the [range] over the label functions while the request is served. *)
Definition MiddlewareFunc : Type := HandlerFunc -> RangeOrder -> HandlerFunc.

(** ** [ToMiddleware] *)

(** Lines 107-112: the route. *)
Definition routeOf (DoNotUseRequestPathFor404 : bool) (cx : echo.Context)
    : Result string :=
  let url := echo.Path cx in
  if String.eqb url "" && negb DoNotUseRequestPathFor404
  then match http.URL (echo.Request cx) with
       | Some u => Ok (url.Path u)
       | None => Panic                   (* c.Request().URL is nil *)
       end
  else Ok url.

(** Lines 114-123: the status. *)
Definition statusOf (cx : echo.Context) (err : option error) : Z :=
  let status := echo.Status (echo.Response_ cx) in
  match err with
  | Some e =>
      let status := match errors.As e with
                    | Some he => Code he
                    | None => status
                    end in
      if (status =? 0) || (status =? http.StatusOK)
      then http.StatusInternalServerError
      else status
  | None => status
  end.

(** Lines 134-136: the loop over the label functions, visiting [order]. *)
Fixpoint labelAttrs (order : RangeOrder) (err : option error)
    (attrs : list attribute.KeyValue) : M (list attribute.KeyValue) :=
  match order with
  | [] => mret attrs
  | (key, labelFunc) :: order' =>
      cx ← c;
      noteCall {| callKey := key; callContext := cx; callErr := err |};;
      labelAttrs order' err (attrs ++ [attribute.String key (labelFunc cx err)])%list
  end.

(** [conf.timeNow()]. *)
Definition readClock (clock : World -> time.Time) : M time.Time :=
  fun w => Ok (clock w, w).

(** A computation that does not touch the world. *)
Definition lift {A} (r : Result A) : M A :=
  fun w => match r with Ok a => Ok (a, w) | Panic => Panic end.

(** [metrics] is the meter [otel.GetMeterProvider().Meter(meterName)] of the
    process. *)
Definition ToMiddleware (metrics : metric.Meter) (conf : MiddlewareConfig)
    : MiddlewareFunc * option error :=
  let timeNow_ := match timeNow conf with
                  | Some f => f
                  | None => time_Now
                  end in
  let ServiceName_ := if String.eqb (ServiceName conf) "" then defaultServiceName
                      else ServiceName conf in
  let '(requestCount, _) :=
    metric.Int64Counter metrics metricHTTPRequestsTotal
      "How many HTTP requests processed, partitioned by status code and HTTP method." in
  let '(requestDuration, _) :=
    metric.Float64Histogram metrics metricHTTPRequestDurationSeconds
      "The HTTP request latencies in seconds." None in
  let '(responseSize, _) :=
    metric.Float64Histogram metrics metricHTTPResponseSizeBytes
      "The HTTP response sizes in bytes." (Some sizeBuckets) in
  let '(requestSize, _) :=
    metric.Float64Histogram metrics metricHTTPRequestSizeBytes
      "The HTTP request sizes in bytes." (Some sizeBuckets) in
  (fun (next : HandlerFunc) (order : RangeOrder) =>
     cx ← c;
     if match Skipper_ conf with
        | Some skipper => skipper cx
        | None => false
        end
     then next
     else
       let reqSz := computeApproximateRequestSize (echo.Request cx) in
       start ← readClock timeNow_;
       err ← next;
       finish ← readClock timeNow_;
       let elapsed := float64_div (float64_of_int (time.Sub finish start))
                                  (float64_of_int time.Second) in
       cx ← c;
       url ← lift (routeOf (DoNotUseRequestPathFor404 conf) cx);
       let status := statusOf cx err in
       let attrs : list attribute.KeyValue := [] in
       let attrs := (attrs ++ [semconv.ServiceName ServiceName_])%list in
       let attrs := (attrs ++ [semconv.HTTPRoute (strings.ToValidUTF8 url replacementChar)])%list in
       let attrs := (attrs ++ [attribute.String semconv.HTTPRequestMethodKey
                                 (http.Method (echo.Request cx))])%list in
       let attrs := (attrs ++ [semconv.HostName (echo.Scheme cx)])%list in
       let attrs := (attrs ++ [attribute.Int semconv.HTTPStatusCodeKey status])%list in
       let attrs := (attrs ++ [semconv.HTTPResponseStatusCode status])%list in
       attrs ← labelAttrs order err attrs;
       cx ← c;
       let ctx := http.Context (echo.Request cx) in
       emit (metric.Add requestCount ctx 1 attrs);;
       emit (metric.Record_ requestSize ctx (float64_of_int reqSz) attrs);;
       emit (metric.Record_ responseSize ctx
               (float64_of_int (echo.Size (echo.Response_ cx))) attrs);;
       emit (metric.Record_ requestDuration ctx elapsed attrs);;
       mret err,
   None).

(** [NewMiddlewareWithConfig] panics when [ToMiddleware] returns an error. *)
Definition NewMiddlewareWithConfig (metrics : metric.Meter)
    (config : MiddlewareConfig) : Result MiddlewareFunc :=
  let '(mw, err) := ToMiddleware metrics config in
  match err with
  | Some _ => Panic
  | None => Ok mw
  end.

Definition NewMiddleware (metrics : metric.Meter) (serviceName : string)
    : Result MiddlewareFunc :=
  NewMiddlewareWithConfig metrics
    {| Skipper_ := None; ServiceName := serviceName; LabelFuncs := ∅;
       timeNow := None; DoNotUseRequestPathFor404 := false |}.

(** ** Names for what a served request produces *)

(** The handler [ToMiddleware] builds around [next]. *)
Definition handlerOf (metrics : metric.Meter) (conf : MiddlewareConfig)
    (next : HandlerFunc) (order : RangeOrder) : HandlerFunc :=
  (ToMiddleware metrics conf).1 next order.

(** Whether the skip predicate bypasses the request (line 97). *)
Definition skipped (conf : MiddlewareConfig) (w : World) : bool :=
  match Skipper_ conf with
  | Some skipper => skipper (ctx w)
  | None => false
  end.

Definition clockOf (conf : MiddlewareConfig) : World -> time.Time :=
  match timeNow conf with
  | Some f => f
  | None => time_Now
  end.

Definition serviceNameOf (conf : MiddlewareConfig) : string :=
  if String.eqb (ServiceName conf) "" then defaultServiceName else ServiceName conf.

(** The four instruments, as the meter returned them. *)
Definition requestCountOf (metrics : metric.Meter) : metric.Instrument :=
  (metric.Int64Counter metrics metricHTTPRequestsTotal
     "How many HTTP requests processed, partitioned by status code and HTTP method.").1.

Definition requestDurationOf (metrics : metric.Meter) : metric.Instrument :=
  (metric.Float64Histogram metrics metricHTTPRequestDurationSeconds
     "The HTTP request latencies in seconds." None).1.

Definition responseSizeOf (metrics : metric.Meter) : metric.Instrument :=
  (metric.Float64Histogram metrics metricHTTPResponseSizeBytes
     "The HTTP response sizes in bytes." (Some sizeBuckets)).1.

Definition requestSizeOf (metrics : metric.Meter) : metric.Instrument :=
  (metric.Float64Histogram metrics metricHTTPRequestSizeBytes
     "The HTTP request sizes in bytes." (Some sizeBuckets)).1.

(** The six attributes of lines 126-132, in the order they are appended. *)
Definition builtinAttrs (serviceName route method host : string) (status : Z)
    : list attribute.KeyValue :=
  [semconv.ServiceName serviceName;
   semconv.HTTPRoute route;
   attribute.String semconv.HTTPRequestMethodKey method;
   semconv.HostName host;
   attribute.Int semconv.HTTPStatusCodeKey status;
   semconv.HTTPResponseStatusCode status].

(** The attribute and the call of one label function. *)
Definition labelAttr (cx : echo.Context) (err : option error)
    (entry : string * LabelValueFunc) : attribute.KeyValue :=
  attribute.String entry.1 (entry.2 cx err).

Definition labelCallOf (cx : echo.Context) (err : option error)
    (entry : string * LabelValueFunc) : LabelCall :=
  {| callKey := entry.1; callContext := cx; callErr := err |}.

(** The four calls of lines 142-145 for a request that started in [w] and
    whose handler left the world [w1], under the attributes [attrs]. *)
Definition measurementsOf (metrics : metric.Meter) (conf : MiddlewareConfig)
    (w w1 : World) (attrs : list attribute.KeyValue) : list metric.Measurement :=
  let ctx_ := http.Context (echo.Request (ctx w1)) in
  [metric.Add (requestCountOf metrics) ctx_ 1 attrs;
   metric.Record_ (requestSizeOf metrics) ctx_
     (float64_of_int (computeApproximateRequestSize (echo.Request (ctx w)))) attrs;
   metric.Record_ (responseSizeOf metrics) ctx_
     (float64_of_int (echo.Size (echo.Response_ (ctx w1)))) attrs;
   metric.Record_ (requestDurationOf metrics) ctx_
     (float64_div (float64_of_int (time.Sub (clockOf conf w1) (clockOf conf w)))
                  (float64_of_int time.Second)) attrs].


Definition callsFor (key : string) (calls : list LabelCall) : list LabelCall :=
  filter (fun call => callKey call = key) calls.

(** The request size as the specification words it: the content length is
    added only when it is non-negative. *)
Definition specRequestSize (r : http.Request) : Z :=
  pathLen r + len (http.Method r) + len (http.Proto r)
  + headersLen (map_to_list (http.Header r)) + len (http.Host r)
  + (if 0 <=? http.ContentLength r then http.ContentLength r else 0).

(** [r] with another URL. *)
Definition withURL (u : option url.URL) (r : http.Request) : http.Request :=
  {| http.URL := u; http.Method := http.Method r; http.Proto := http.Proto r;
     http.Header := http.Header r; http.Host := http.Host r;
     http.ContentLength := http.ContentLength r; http.Context := http.Context r |}.

(** ** Sample inputs *)

(** [GET /x HTTP/1.1] to host [h] with the header [A: b] and no body. *)
Definition sampleRequest : http.Request :=
  {| http.URL := Some {| url.Path := "/x" |};
     http.Method := "GET";
     http.Proto := "HTTP/1.1";
     http.Header := {[ "A" := ["b"] ]};
     http.Host := "h";
     http.ContentLength := 0;
     http.Context := 0%nat |}.

(** An empty request that declares the content length -2. *)
Definition negativeLengthRequest : http.Request :=
  {| http.URL := None; http.Method := ""; http.Proto := ""; http.Header := ∅;
     http.Host := ""; http.ContentLength := -2; http.Context := 0%nat |}.

(** The path of [GET /%FF]: the single byte FF. *)
Definition invalidPath : string := String (ascii_of_N 255) "".

Definition contextOf (r : http.Request) (route : string) : echo.Context :=
  {| echo.Request := r; echo.Path := route;
     echo.Response_ := {| echo.Status := 0; echo.Size := 0 |};
     echo.Scheme := "http" |}.

Definition worldOf (cx : echo.Context) : World :=
  {| ctx := cx; now := 0; sink := []; labelCalls := [] |}.

(** A meter whose instruments are named after what was asked for, and whose
    counter creation reports an error. *)
Definition sampleMeter : metric.Meter :=
  {| metric.Int64Counter := fun name description =>
       ({| metric.Name := name; metric.Description := description;
           metric.ExplicitBucketBoundaries := None |},
        Some (errorString "duplicate instrument"));
     metric.Float64Histogram := fun name description boundaries =>
       ({| metric.Name := name; metric.Description := description;
           metric.ExplicitBucketBoundaries := boundaries |}, None) |}.

(** A handler that writes status 200 and 5 bytes after 7 nanoseconds, and
    returns [err]. *)
Definition sampleHandler (err : option error) : HandlerFunc :=
  fun w =>
    Ok (err,
        {| ctx := {| echo.Request := echo.Request (ctx w);
                     echo.Path := echo.Path (ctx w);
                     echo.Response_ := {| echo.Status := 200; echo.Size := 5 |};
                     echo.Scheme := echo.Scheme (ctx w) |};
           now := now w + 7; sink := sink w; labelCalls := labelCalls w |}).

(** A label function that tells whether the handler returned an error. *)
Definition errorLabel : LabelValueFunc :=
  fun _ err => match err with Some _ => "error" | None => "ok" end.

Definition sampleConfig : MiddlewareConfig :=
  {| Skipper_ := None; ServiceName := ""; LabelFuncs := {[ "outcome" := errorLabel ]};
     timeNow := None; DoNotUseRequestPathFor404 := false |}.

(** The configuration of [NewMiddleware]. *)
Definition defaultConfig (serviceName : string) : MiddlewareConfig :=
  {| Skipper_ := None; ServiceName := serviceName; LabelFuncs := ∅;
     timeNow := None; DoNotUseRequestPathFor404 := false |}.

(** A configuration that skips every request. *)
Definition skippingConfig : MiddlewareConfig :=
  {| Skipper_ := Some (fun _ => true); ServiceName := "svc";
     LabelFuncs := {[ "outcome" := errorLabel ]};
     timeNow := None; DoNotUseRequestPathFor404 := false |}.

(** [POST /] that declares the largest content length [net/http] accepts,
    2^63 - 1. *)
Definition hugeLengthRequest : http.Request :=
  {| http.URL := Some {| url.Path := "/" |}; http.Method := "POST";
     http.Proto := "HTTP/1.1"; http.Header := ∅; http.Host := "h";
     http.ContentLength := 9223372036854775807; http.Context := 0%nat |}.

(** [GET] of a request whose URL is nil. *)
Definition nilURLRequest : http.Request :=
  {| http.URL := None; http.Method := "GET"; http.Proto := "HTTP/1.1";
     http.Header := ∅; http.Host := "h"; http.ContentLength := 0;
     http.Context := 0%nat |}.

(** The world a sample request is served in: the router matched the route
    [/x]. *)
Definition sampleWorld : World := worldOf (contextOf sampleRequest "/x").

(** The error of a handler that failed without a status code. *)
Definition sampleError : option error := Some (errorString "boom").

(** [GET /%FF]: the path is the single byte FF, and no route matched. *)
Definition invalidPathRequest : http.Request :=
  {| http.URL := Some {| url.Path := invalidPath |}; http.Method := "GET";
     http.Proto := "HTTP/1.1"; http.Header := ∅; http.Host := "h";
     http.ContentLength := 0; http.Context := 0%nat |}.

Definition invalidPathWorld : World := worldOf (contextOf invalidPathRequest "").

(** [r] with another header map. *)
Definition withHeader (h : gmap string (list string)) (r : http.Request)
    : http.Request :=
  {| http.URL := http.URL r; http.Method := http.Method r; http.Proto := http.Proto r;
     http.Header := h; http.Host := http.Host r;
     http.ContentLength := http.ContentLength r; http.Context := http.Context r |}.

(** Whether every byte of [s] is below [utf8.RuneSelf]. *)
Fixpoint isASCII (s : string) : bool :=
  match s with
  | EmptyString => true
  | String ch rest => (utf8.byte ch <? utf8.RuneSelf)%N && isASCII rest
  end.

(** The bucket boundaries in bytes: 1 KiB to 10 MiB. *)
Definition bucketBytes : list Z :=
  [1024; 2048; 5120; 10240; 102400; 512000; 1048576; 2621440; 5242880; 10485760].

(** A request with two headers, one of them with two values. *)
Definition twoHeaderRequest : http.Request :=
  withHeader {[ "Accept" := ["text/html"; "text/plain"]; "X-Id" := ["7"] ]}
    sampleRequest.


(** * Properties *)

(** ** Machine integers *)

Lemma int_wrap_id z : in_int z -> int_wrap z = z.
Proof.
  unfold in_int, int_wrap. intros H.
  rewrite Z.mod_small by lia. lia.
Qed.

Lemma int_wrap_add_l a b : int_wrap (int_wrap a + b) = int_wrap (a + b).
Proof.
  unfold int_wrap. f_equal.
  replace ((a + 2 ^ 63) mod 2 ^ 64 - 2 ^ 63 + b + 2 ^ 63)
    with ((a + 2 ^ 63) mod 2 ^ 64 + b) by lia.
  rewrite Zplus_mod_idemp_l. f_equal. lia.
Qed.

Lemma int_wrap_add_r a b : int_wrap (a + int_wrap b) = int_wrap (a + b).
Proof. rewrite (Z.add_comm a), int_wrap_add_l. f_equal. lia. Qed.

Lemma int_add_wrap a b : int_add (int_wrap a) b = int_wrap (a + b).
Proof. apply int_wrap_add_l. Qed.

Lemma len_nonneg s : 0 <= len s.
Proof. unfold len. lia. Qed.

(** ** The request size *)

Lemma addValues_wrap values a :
  addValues (int_wrap a) values = int_wrap (a + valuesLen values).
Proof.
  unfold addValues. revert a.
  induction values as [|v values IH]; intros a; simpl.
  - f_equal. lia.
  - rewrite int_add_wrap, IH. f_equal. lia.
Qed.

Lemma addHeader_wrap entry a :
  addHeader (int_wrap a) entry = int_wrap (a + (len entry.1 + valuesLen entry.2)).
Proof.
  unfold addHeader. rewrite int_add_wrap, addValues_wrap. f_equal. lia.
Qed.

Lemma fold_addHeader_wrap entries a :
  fold_left addHeader entries (int_wrap a) = int_wrap (a + headersLen entries).
Proof.
  revert a. induction entries as [|e entries IH]; intros a; simpl.
  - f_equal. lia.
  - rewrite addHeader_wrap, IH. f_equal. lia.
Qed.

Lemma headersLen_perm entries entries' :
  entries ≡ₚ entries' -> headersLen entries = headersLen entries'.
Proof.
  induction 1; simpl; lia.
Qed.

Lemma valuesLen_nonneg values : 0 <= valuesLen values.
Proof.
  induction values as [|v values IH]; simpl; [lia|]. pose proof (len_nonneg v). lia.
Qed.

Lemma headersLen_nonneg entries : 0 <= headersLen entries.
Proof.
  induction entries as [|e entries IH]; simpl; [lia|].
  pose proof (len_nonneg e.1). pose proof (valuesLen_nonneg e.2). lia.
Qed.

(** Whatever the order of the [range] over the header, the function returns
    the sum of the parts, wrapped to the range of [int]. *)
Lemma computeApproximateRequestSizeIn_sum entries r :
  computeApproximateRequestSizeIn entries r
  = int_wrap (pathLen r + len (http.Method r) + len (http.Proto r)
              + headersLen entries + len (http.Host r) + contentLengthPart r).
Proof.
  unfold computeApproximateRequestSizeIn, contentLengthPart, pathLen.
  set (p := match http.URL r with Some u => len (url.Path u) | None => 0 end).
  change (int_add p (len (http.Method r)))
    with (int_wrap (p + len (http.Method r))).
  rewrite int_add_wrap, fold_addHeader_wrap, int_add_wrap.
  destruct (http.ContentLength r =? -1).
  - f_equal. lia.
  - rewrite int_add_wrap, int_wrap_add_r. f_equal.
Qed.

(** The size does not depend on the order in which the [range] visits the
    header: visiting the entries in any order gives the size computed for the
    order of [map_to_list]. *)
Theorem computeApproximateRequestSize_order entries r :
  entries ≡ₚ map_to_list (http.Header r) ->
  computeApproximateRequestSizeIn entries r = computeApproximateRequestSize r.
Proof.
  intros H. unfold computeApproximateRequestSize.
  rewrite !computeApproximateRequestSizeIn_sum, (headersLen_perm _ _ H). reflexivity.
Qed.

Lemma computeApproximateRequestSize_wrap r :
  computeApproximateRequestSize r = int_wrap (requestSizeSum r).
Proof. apply computeApproximateRequestSizeIn_sum. Qed.

(** C3 (as amended). For every request the approximate size is, in the
    arithmetic of Go's [int] (exactly, when the sum is in the range of
    [int]), the sum of the length of the URL path, of the method, of the
    protocol, of every header name and of every value of every header, of the
    host, and of the declared content length whenever that is not -1.  A
    content length of -1 adds zero; a content length of at least -1 never
    adds a negative amount, and the sum is then the one the specification
    describes.  The request [GET /x HTTP/1.1] with header [A: b], host [h]
    and content length 0 has size 16. *)
Theorem computeApproximateRequestSize_sum (r : http.Request) :
  computeApproximateRequestSize r = int_wrap (requestSizeSum r)
  /\ (in_int (requestSizeSum r) -> computeApproximateRequestSize r = requestSizeSum r)
  /\ (http.ContentLength r = -1 -> contentLengthPart r = 0)
  /\ (http.ContentLength r <> -1 -> contentLengthPart r = http.ContentLength r)
  /\ (-1 <= http.ContentLength r ->
      0 <= contentLengthPart r /\ requestSizeSum r = specRequestSize r)
  /\ computeApproximateRequestSize sampleRequest = 16.
Proof.
  refine (conj _ (conj _ (conj _ (conj _ (conj _ _))))).
  - apply computeApproximateRequestSize_wrap.
  - intros H. rewrite computeApproximateRequestSize_wrap. now apply int_wrap_id.
  - unfold contentLengthPart. intros ->. reflexivity.
  - unfold contentLengthPart. intros H.
    destruct (Z.eqb_spec (http.ContentLength r) (-1)); [contradiction | reflexivity].
  - intros H. unfold requestSizeSum, specRequestSize, contentLengthPart.
    destruct (Z.eqb_spec (http.ContentLength r) (-1)) as [->|Hne]; [split; [lia | reflexivity]|].
    destruct (Z.leb_spec 0 (http.ContentLength r)); lia.
  - vm_compute. reflexivity.
Qed.

(** C3, counterexample. A request that declares the content length -2 (and
    is empty otherwise) has size -2: the content length is added although it
    is negative, where the specification's sum is 0. *)
Lemma computeApproximateRequestSize_negative_length :
  http.ContentLength negativeLengthRequest = -2
  /\ computeApproximateRequestSize negativeLengthRequest = -2
  /\ specRequestSize negativeLengthRequest = 0
  /\ computeApproximateRequestSize negativeLengthRequest
     <> specRequestSize negativeLengthRequest.
Proof.
  refine (conj _ (conj _ (conj _ _))); try (vm_compute; reflexivity).
  vm_compute. discriminate.
Qed.

(** The additions are those of [int]: with the largest content length the
    sum leaves the range of [int] and the size comes out negative. *)
Lemma computeApproximateRequestSize_wraps :
  in_int (http.ContentLength hugeLengthRequest)
  /\ 0 < requestSizeSum hugeLengthRequest
  /\ computeApproximateRequestSize hugeLengthRequest < 0.
Proof.
  refine (conj _ (conj _ _)).
  - unfold in_int. simpl. lia.
  - vm_compute. reflexivity.
  - vm_compute. reflexivity.
Qed.

(** C10. On a request whose URL is nil the function returns a size (it is a
    total function: the only dereference of the URL is guarded): the path
    adds zero, the size is the sum of the other parts, and giving the request
    a URL changes the size by the length of its path and nothing else. *)
Theorem computeApproximateRequestSize_nil_URL (r : http.Request) :
  http.URL r = None ->
  pathLen r = 0
  /\ computeApproximateRequestSize r
     = int_wrap (len (http.Method r) + len (http.Proto r)
                 + headersLen (map_to_list (http.Header r)) + len (http.Host r)
                 + contentLengthPart r)
  /\ forall u : url.URL,
       computeApproximateRequestSize (withURL (Some u) r)
       = int_wrap (len (url.Path u) + computeApproximateRequestSize r).
Proof.
  intros HURL.
  assert (Hp : pathLen r = 0) by (unfold pathLen; now rewrite HURL).
  refine (conj _ (conj _ _)).
  - exact Hp.
  - rewrite computeApproximateRequestSize_wrap. unfold requestSizeSum.
    rewrite Hp. f_equal.
  - intros u. rewrite !computeApproximateRequestSize_wrap, int_wrap_add_r.
    unfold requestSizeSum, contentLengthPart, pathLen. rewrite HURL. simpl.
    f_equal. lia.
Qed.

Lemma computeApproximateRequestSize_nil_URL_witness :
  http.URL negativeLengthRequest = None
  /\ pathLen negativeLengthRequest = 0.
Proof.
  split; [reflexivity|].
  apply (computeApproximateRequestSize_nil_URL negativeLengthRequest). reflexivity.
Defined.

(** ** Running the handler *)

Ltac unfold_M :=
  unfold mbind, mret, M_bind, M_ret, bind, ret, c, emit, noteCall, readClock, lift.

Lemma labelAttrs_run order err attrs w :
  labelAttrs order err attrs w
  = Ok ((attrs ++ map (labelAttr (ctx w) err) order)%list,
        {| ctx := ctx w; now := now w; sink := sink w;
           labelCalls := (labelCalls w ++ map (labelCallOf (ctx w) err) order)%list |}).
Proof.
  revert attrs w. induction order as [|[key labelFunc] order IH]; intros attrs w.
  - simpl. unfold_M. rewrite !app_nil_r. now destruct w.
  - simpl. unfold_M. simpl. rewrite IH. simpl.
    rewrite <- !app_assoc. reflexivity.
Qed.

(** A request the skip predicate bypasses is handed to [next], and that is
    all. *)
Lemma handlerOf_skipped metrics conf next order w :
  skipped conf w = true -> handlerOf metrics conf next order w = next w.
Proof.
  unfold skipped, handlerOf, ToMiddleware. intros Hskip.
  destruct (metric.Int64Counter _ _ _), (metric.Float64Histogram _ _ _ None),
    (metric.Float64Histogram _ metricHTTPResponseSizeBytes _ _),
    (metric.Float64Histogram _ metricHTTPRequestSizeBytes _ _).
  simpl. unfold_M. simpl. now rewrite Hskip.
Qed.

(** A request that is not bypassed, whose handler returns and whose route can
    be read: the handler's value is returned, the label functions are called
    in the order of the [range], and the four measurements are made. *)
Lemma handlerOf_run metrics conf next order w err w1 url :
  skipped conf w = false ->
  next w = Ok (err, w1) ->
  routeOf (DoNotUseRequestPathFor404 conf) (ctx w1) = Ok url ->
  handlerOf metrics conf next order w
  = Ok (err,
        {| ctx := ctx w1; now := now w1;
           sink := (sink w1 ++
                    measurementsOf metrics conf w w1
                      (builtinAttrs (serviceNameOf conf)
                         (strings.ToValidUTF8 url replacementChar)
                         (http.Method (echo.Request (ctx w1)))
                         (echo.Scheme (ctx w1))
                         (statusOf (ctx w1) err)
                       ++ map (labelAttr (ctx w1) err) order))%list;
           labelCalls := (labelCalls w1 ++ map (labelCallOf (ctx w1) err) order)%list |}).
Proof.
  unfold skipped, handlerOf, measurementsOf, requestCountOf, requestDurationOf,
    responseSizeOf, requestSizeOf, clockOf, serviceNameOf, ToMiddleware.
  intros Hskip Hnext Hroute.
  destruct (metric.Int64Counter _ _ _), (metric.Float64Histogram _ _ _ None),
    (metric.Float64Histogram _ metricHTTPResponseSizeBytes _ _),
    (metric.Float64Histogram _ metricHTTPRequestSizeBytes _ _).
  simpl. unfold_M. simpl. rewrite Hskip, Hnext, Hroute.
  rewrite labelAttrs_run. simpl. rewrite <- !app_assoc. reflexivity.
Qed.

(** The one way the handler fails by itself: the route is empty, the fallback
    is on, and the URL of the request is nil. *)
Lemma handlerOf_panics metrics conf next order w err w1 :
  skipped conf w = false ->
  next w = Ok (err, w1) ->
  routeOf (DoNotUseRequestPathFor404 conf) (ctx w1) = Panic ->
  handlerOf metrics conf next order w = Panic.
Proof.
  unfold skipped, handlerOf, ToMiddleware.
  intros Hskip Hnext Hroute.
  destruct (metric.Int64Counter _ _ _), (metric.Float64Histogram _ _ _ None),
    (metric.Float64Histogram _ metricHTTPResponseSizeBytes _ _),
    (metric.Float64Histogram _ metricHTTPRequestSizeBytes _ _).
  simpl. unfold_M. simpl. now rewrite Hskip, Hnext, Hroute.
Qed.


(** ** The status *)




(** ** What the handler returns *)



(** C1, at the failing input. With the configuration of [NewMiddleware], a
    request whose URL is nil and that matched no route is not bypassed, its
    handler returns nil, and the handler around it returns nothing: it
    panics where line 111 reads the path of the nil URL. *)
Theorem handlerOf_nil_URL_panics :
  skipped (defaultConfig "svc") (worldOf (contextOf nilURLRequest "")) = false
  /\ (exists w1, sampleHandler None (worldOf (contextOf nilURLRequest ""))
                 = Ok (None, w1))
  /\ handlerOf sampleMeter (defaultConfig "svc") (sampleHandler None) []
       (worldOf (contextOf nilURLRequest "")) = Panic.
Proof.
  split; [reflexivity|]. split; [eexists; reflexivity|].
  eapply handlerOf_panics; [reflexivity | reflexivity | reflexivity].
Qed.

(** ** Bypassed requests *)

(** C5. When a skip predicate is configured and holds of the request, the
    handler around [next] is [next]: it returns what [next] returns and
    leaves the world as [next] leaves it, so the instruments are given
    nothing (no [Add] on the counter, no [Record] on a histogram) and no
    label function is called. *)
Theorem skipped_request_not_measured metrics conf next order w skipper :
  Skipper_ conf = Some skipper ->
  skipper (ctx w) = true ->
  handlerOf metrics conf next order w = next w
  /\ forall err w1, next w = Ok (err, w1) ->
       exists w2, handlerOf metrics conf next order w = Ok (err, w2)
                  /\ sink w2 = sink w1 /\ labelCalls w2 = labelCalls w1.
Proof.
  intros HS Hskip.
  assert (H : handlerOf metrics conf next order w = next w).
  { apply handlerOf_skipped. unfold skipped. now rewrite HS. }
  split; [exact H|].
  intros err w1 Hnext. exists w1. rewrite H. auto.
Qed.

Lemma skipped_request_not_measured_witness :
  handlerOf sampleMeter skippingConfig (sampleHandler sampleError)
    (map_to_list (LabelFuncs skippingConfig)) sampleWorld
  = sampleHandler sampleError sampleWorld.
Proof.
  apply (skipped_request_not_measured sampleMeter skippingConfig
           (sampleHandler sampleError) _ sampleWorld (fun _ => true));
    reflexivity.
Defined.

(** ** The attributes *)




(** ** The label functions *)

Lemma callsFor_absent cx err (order : RangeOrder) key :
  key ∉ order.*1 -> callsFor key (map (labelCallOf cx err) order) = [].
Proof.
  unfold callsFor. induction order as [|[k f] order IH]; intros Hk; [reflexivity|].
  simpl in *. apply not_elem_of_cons in Hk as [Hne Hk].
  rewrite filter_cons_False by (simpl; congruence). now apply IH.
Qed.

Lemma callsFor_order cx err (order : RangeOrder) key labelFunc :
  NoDup order.*1 ->
  (key, labelFunc) ∈ order ->
  callsFor key (map (labelCallOf cx err) order)
  = [ {| callKey := key; callContext := cx; callErr := err |} ].
Proof.
  induction order as [|[k f] order IH]; intros Hnd Hin.
  - inversion Hin.
  - simpl in Hnd. apply NoDup_cons in Hnd as [Hk Hnd].
    apply elem_of_cons in Hin as [Heq | Hin].
    + injection Heq as -> ->. unfold callsFor. simpl.
      rewrite filter_cons_True by reflexivity. f_equal.
      now apply callsFor_absent.
    + unfold callsFor. simpl. rewrite filter_cons_False; [now apply IH|].
      simpl. intros ->. apply Hk. apply list_elem_of_fmap. now exists (key, labelFunc).
Qed.

(** C7. For every request that is measured and every configured label
    function: during the request the function is called exactly once, with
    the request context (as the handler left it) and the error the handler
    returned, and the string it returns is among the attributes of the
    measurements, under the key the function is configured under.  No other
    call is made: there are as many calls as configured functions. *)
Theorem label_function_called_once
    metrics conf next order w err w1 url key (labelFunc : LabelValueFunc) :
  skipped conf w = false ->
  next w = Ok (err, w1) ->
  routeOf (DoNotUseRequestPathFor404 conf) (ctx w1) = Ok url ->
  order ≡ₚ map_to_list (LabelFuncs conf) ->
  LabelFuncs conf !! key = Some labelFunc ->
  exists (w2 : World) (attrs : list attribute.KeyValue) (calls : list LabelCall),
    handlerOf metrics conf next order w = Ok (err, w2)
    /\ sink w2 = (sink w1 ++ measurementsOf metrics conf w w1 attrs)%list
    /\ labelCalls w2 = (labelCalls w1 ++ calls)%list
    /\ callsFor key calls
       = [ {| callKey := key; callContext := ctx w1; callErr := err |} ]
    /\ attribute.String key (labelFunc (ctx w1) err) ∈ attrs
    /\ length calls = size (LabelFuncs conf).
Proof.
  intros Hskip Hnext Hroute Horder Hkey.
  assert (Hin : (key, labelFunc) ∈ order).
  { rewrite Horder. now apply elem_of_map_to_list. }
  assert (Hnd : NoDup order.*1).
  { rewrite Horder. apply NoDup_fst_map_to_list. }
  eexists _, _, _.
  split; [apply (handlerOf_run _ _ _ _ _ _ _ _ Hskip Hnext Hroute)|].
  split; [reflexivity|]. split; [reflexivity|].
  split; [now apply (callsFor_order _ _ _ _ labelFunc)|]. split.
  - apply elem_of_app. right.
    apply list_elem_of_fmap. now exists (key, labelFunc).
  - rewrite length_map, (Permutation_length Horder). apply length_map_to_list.
Qed.

Lemma label_function_called_once_witness :
  exists (w2 : World) (calls : list LabelCall),
    handlerOf sampleMeter sampleConfig (sampleHandler sampleError)
      (map_to_list (LabelFuncs sampleConfig)) sampleWorld = Ok (sampleError, w2)
    /\ labelCalls w2 = calls
    /\ length (callsFor "outcome" calls) = 1%nat.
Proof.
  edestruct (label_function_called_once sampleMeter sampleConfig
               (sampleHandler sampleError)
               (map_to_list (LabelFuncs sampleConfig)) sampleWorld)
    with (key := "outcome") (labelFunc := errorLabel)
    as (w2 & attrs & calls & Hrun & _ & Hcalls & Honce & _);
    [reflexivity | reflexivity | reflexivity | reflexivity | reflexivity |].
  exists w2, calls. split; [exact Hrun|]. split; [exact Hcalls|].
  now rewrite Honce.
Defined.

(** ** Construction *)

(** C9. For every meter and every configuration, [ToMiddleware] returns a
    nil error, whatever errors the creation of the four instruments reported;
    so [NewMiddlewareWithConfig] does not reach its [panic] and returns the
    middleware, and so does [NewMiddleware] for every service name. *)
Theorem ToMiddleware_no_error (metrics : metric.Meter) (conf : MiddlewareConfig) :
  (ToMiddleware metrics conf).2 = None
  /\ NewMiddlewareWithConfig metrics conf = Ok (ToMiddleware metrics conf).1
  /\ forall serviceName : string,
       NewMiddleware metrics serviceName
       = Ok (ToMiddleware metrics (defaultConfig serviceName)).1.
Proof.
  assert (H : forall conf', (ToMiddleware metrics conf').2 = None).
  { intros conf'. unfold ToMiddleware.
    destruct (metric.Int64Counter _ _ _), (metric.Float64Histogram _ _ _ None),
      (metric.Float64Histogram _ metricHTTPResponseSizeBytes _ _),
      (metric.Float64Histogram _ metricHTTPRequestSizeBytes _ _).
    reflexivity. }
  assert (H' : forall conf',
             NewMiddlewareWithConfig metrics conf' = Ok (ToMiddleware metrics conf').1).
  { intros conf'. unfold NewMiddlewareWithConfig. specialize (H conf').
    destruct (ToMiddleware metrics conf') as [mw e]. simpl in H. now rewrite H. }
  split; [apply H|]. split; [apply H'|].
  intros serviceName. unfold NewMiddleware. apply H'.
Qed.

(** ** Well-formed UTF-8 *)

Lemma append_cons ch (a b : string) :
  (String ch a ++ b)%string = String ch (a ++ b)%string.
Proof. reflexivity. Qed.



Lemma slice_append n s : (utf8.sliceTo n s ++ utf8.sliceFrom n s)%string = s.
Proof.
  revert s. induction n as [|n IH]; intros [|ch s]; simpl; try reflexivity.
  rewrite append_cons. f_equal. apply IH.
Qed.

Lemma length_sliceFrom n s :
  String.length (utf8.sliceFrom n s) = (String.length s - n)%nat.
Proof.
  revert s. induction n as [|n IH]; intros [|ch s]; simpl; try reflexivity; try lia.
  apply IH.
Qed.

Lemma first_lead_size ch size lo hi :
  utf8.first ch = utf8.lead size lo hi -> size = 2%nat \/ size = 3%nat \/ size = 4%nat.
Proof.
  unfold utf8.first.
  repeat match goal with
         | |- context [if ?b then _ else _] => destruct b
         end; intros H; inversion H; auto.
Qed.

Lemma validLoop_step f ch rest :
  utf8.validLoop (S f) (String ch rest)
  = if (utf8.byte ch <? utf8.RuneSelf)%N then utf8.validLoop f rest
    else if (utf8.DecodeRuneInStringSize (String ch rest) =? 1)%nat then false
    else utf8.validLoop f
           (utf8.sliceFrom (utf8.DecodeRuneInStringSize (String ch rest)) (String ch rest)).
Proof.
  cbn [utf8.validLoop utf8.DecodeRuneInStringSize].
  destruct (utf8.byte ch <? utf8.RuneSelf)%N; [reflexivity|].
  destruct (utf8.first ch) as [| |size lo hi] eqn:Hfirst; try reflexivity.
  destruct (first_lead_size _ _ _ _ Hfirst) as [-> | [-> | ->]];
    cbn [Nat.eqb Nat.leb];
    repeat match goal with
           | |- context [if ?b then _ else _] => destruct b; try reflexivity
           end.
Qed.

Lemma decode_bounds ch rest :
  (utf8.byte ch <? utf8.RuneSelf)%N = false ->
  utf8.DecodeRuneInStringSize (String ch rest) <> 1%nat ->
  (2 <= utf8.DecodeRuneInStringSize (String ch rest) <= String.length (String ch rest))%nat.
Proof.
  intros _. cbn [utf8.DecodeRuneInStringSize].
  destruct (utf8.first ch) as [| |size lo hi] eqn:Hfirst; try congruence.
  destruct (first_lead_size _ _ _ _ Hfirst) as [-> | [-> | ->]];
    cbn [Nat.eqb Nat.leb];
    repeat match goal with
           | |- context [if ?b then _ else _] => destruct b eqn:?; try congruence
           end;
    intros _;
    repeat match goal with
           | H : (_ <? _)%nat = false |- _ => apply Nat.ltb_ge in H
           end; lia.
Qed.




Lemma ValidString_ascii ch t :
  (utf8.byte ch <? utf8.RuneSelf)%N = true ->
  utf8.ValidString (String ch t) = utf8.ValidString t.
Proof.
  intros Hascii. unfold utf8.ValidString. cbn [String.length].
  now rewrite validLoop_step, Hascii.
Qed.






Lemma replaceLoop_id f invalid s replacement :
  (String.length s <= f)%nat ->
  utf8.validLoop f s = true ->
  strings.replaceLoop f invalid s replacement = s.
Proof.
  revert invalid s. induction f as [|f IH]; intros invalid [|ch rest] Hlen Hvalid;
    try reflexivity; [simpl in Hlen; lia|].
  rewrite validLoop_step in Hvalid. cbn [strings.replaceLoop].
  destruct (utf8.byte ch <? utf8.RuneSelf)%N eqn:Hascii.
  - f_equal. apply IH; [simpl in Hlen; lia | exact Hvalid].
  - destruct (Nat.eqb_spec (utf8.DecodeRuneInStringSize (String ch rest)) 1) as [|Hne];
      [discriminate|].
    pose proof (decode_bounds ch rest Hascii Hne) as Hb.
    rewrite IH; [apply slice_append | | exact Hvalid].
    rewrite length_sliceFrom. simpl in *. lia.
Qed.

Lemma ToValidUTF8_id s replacement :
  utf8.ValidString s = true -> strings.ToValidUTF8 s replacement = s.
Proof. intros H. apply replaceLoop_id; [lia | exact H]. Qed.

(** ** The route *)

Lemma routeOf_cases flag cx url :
  routeOf flag cx = Ok url ->
  (echo.Path cx <> "" -> url = echo.Path cx)
  /\ (echo.Path cx = "" -> flag = true -> url = "")
  /\ (echo.Path cx = "" -> flag = false ->
      exists u, http.URL (echo.Request cx) = Some u /\ url = url.Path u).
Proof.
  unfold routeOf.
  destruct (String.eqb_spec (echo.Path cx) "") as [Hempty | Hnonempty], flag; simpl.
  - intros [= <-]. split; [congruence|]. split; [auto | discriminate].
  - destruct (http.URL (echo.Request cx)) as [u|]; [|discriminate].
    intros [= <-]. split; [congruence|]. split; [discriminate | eauto].
  - intros [= <-]. split; [auto|]. split; congruence.
  - intros [= <-]. split; [auto|]. split; congruence.
Qed.



(** C4 (as amended). For every request that is measured, the route
    attribute is [strings.ToValidUTF8] of a route that is: the matched route
    template when that is not empty, whatever the flag; the empty string when
    the template is empty and [DoNotUseRequestPathFor404] is set (the
    attribute is then empty); the path of the request URL when the template is
    empty and the flag is not set.  The attribute equals that route whenever
    the route is valid UTF-8. *)
Theorem route_attribute metrics conf next order w err w1 url :
  skipped conf w = false ->
  next w = Ok (err, w1) ->
  routeOf (DoNotUseRequestPathFor404 conf) (ctx w1) = Ok url ->
  exists (w2 : World) (attrs : list attribute.KeyValue),
    handlerOf metrics conf next order w = Ok (err, w2)
    /\ sink w2 = (sink w1 ++ measurementsOf metrics conf w w1 attrs)%list
    /\ attrs !! 1%nat
       = Some (semconv.HTTPRoute (strings.ToValidUTF8 url replacementChar))
    /\ (echo.Path (ctx w1) <> "" -> url = echo.Path (ctx w1))
    /\ (echo.Path (ctx w1) = "" -> DoNotUseRequestPathFor404 conf = true ->
        url = "" /\ strings.ToValidUTF8 url replacementChar = "")
    /\ (echo.Path (ctx w1) = "" -> DoNotUseRequestPathFor404 conf = false ->
        exists u, http.URL (echo.Request (ctx w1)) = Some u /\ url = url.Path u)
    /\ (utf8.ValidString url = true -> strings.ToValidUTF8 url replacementChar = url).
Proof.
  intros Hskip Hnext Hroute.
  destruct (routeOf_cases _ _ _ Hroute) as (Htemplate & Hoff & Hfallback).
  eexists _, _.
  split; [apply (handlerOf_run _ _ _ _ _ _ _ _ Hskip Hnext Hroute)|].
  split; [reflexivity|]. split; [reflexivity|]. split; [exact Htemplate|].
  split; [|split; [exact Hfallback | apply ToValidUTF8_id]].
  intros Hempty Hflag. rewrite (Hoff Hempty Hflag). split; reflexivity.
Qed.

Lemma route_attribute_witness :
  exists (w2 : World) (attrs : list attribute.KeyValue),
    handlerOf sampleMeter sampleConfig (sampleHandler sampleError)
      (map_to_list (LabelFuncs sampleConfig)) sampleWorld = Ok (sampleError, w2)
    /\ attrs !! 1%nat = Some (semconv.HTTPRoute "/x")
    /\ exists w1, sink w2 = measurementsOf sampleMeter sampleConfig sampleWorld w1 attrs.
Proof.
  edestruct (route_attribute sampleMeter sampleConfig (sampleHandler sampleError)
               (map_to_list (LabelFuncs sampleConfig)) sampleWorld)
    as (w2 & attrs & Hrun & Hsink & Hattr & _);
    [reflexivity | reflexivity | reflexivity |].
  exists w2, attrs. split; [exact Hrun|]. split; [|eexists; exact Hsink].
  rewrite Hattr. reflexivity.
Defined.

(** C4, counterexample. [GET /%FF] matches no route and the fallback is on:
    the route attribute of the measurements is U+FFFD, which is not the path
    of the request (the byte FF). *)
Lemma route_attribute_not_raw_path :
  echo.Path (ctx invalidPathWorld) = ""
  /\ DoNotUseRequestPathFor404 (defaultConfig "svc") = false
  /\ http.URL (echo.Request (ctx invalidPathWorld)) = Some {| url.Path := invalidPath |}
  /\ exists (w2 : World) (attrs : list attribute.KeyValue),
       handlerOf sampleMeter (defaultConfig "svc") (sampleHandler None) []
         invalidPathWorld = Ok (None, w2)
       /\ sink w2 = measurementsOf sampleMeter (defaultConfig "svc")
                      invalidPathWorld w2 attrs
       /\ attrs !! 1%nat = Some (semconv.HTTPRoute replacementChar)
       /\ replacementChar <> invalidPath.
Proof.
  split; [reflexivity|]. split; [reflexivity|]. split; [reflexivity|].
  eexists _, _. split; [vm_compute; reflexivity|].
  split; [reflexivity|]. split; [reflexivity|]. discriminate.
Qed.

(** ** More on the request size *)

Lemma computeApproximateRequestSize_order_witness :
  computeApproximateRequestSizeIn
    (reverse (map_to_list (http.Header twoHeaderRequest))) twoHeaderRequest
  = computeApproximateRequestSize twoHeaderRequest.
Proof.
  apply (computeApproximateRequestSize_order
           (reverse (map_to_list (http.Header twoHeaderRequest))) twoHeaderRequest).
  apply reverse_Permutation.
Defined.

(** Adding a header that the request does not have yet adds the length of
    its name and the lengths of its values to the size (in the arithmetic of
    [int]), whatever the other headers are. *)
Theorem computeApproximateRequestSize_insert_header r name values :
  http.Header r !! name = None ->
  computeApproximateRequestSize (withHeader (<[name := values]> (http.Header r)) r)
  = int_wrap (computeApproximateRequestSize r + (len name + valuesLen values)).
Proof.
  intros Hfresh.
  rewrite !computeApproximateRequestSize_wrap, int_wrap_add_l.
  unfold requestSizeSum, pathLen, contentLengthPart. simpl.
  rewrite (headersLen_perm _ _ (map_to_list_insert _ _ _ Hfresh)). simpl.
  f_equal. lia.
Qed.

Lemma computeApproximateRequestSize_insert_header_witness :
  computeApproximateRequestSize
    (withHeader (<["X-Id" := ["7"]]> (http.Header sampleRequest)) sampleRequest)
  = 21.
Proof.
  rewrite (computeApproximateRequestSize_insert_header sampleRequest "X-Id" ["7"]);
    [vm_compute; reflexivity | reflexivity].
Defined.

(** When the declared content length is at least -1 and the sum of the parts
    is in the range of [int], the size is not negative, and it is at least
    the content length part and at least the lengths of method, protocol and
    host together. *)
Theorem computeApproximateRequestSize_bounds r :
  -1 <= http.ContentLength r ->
  in_int (requestSizeSum r) ->
  0 <= computeApproximateRequestSize r
  /\ contentLengthPart r <= computeApproximateRequestSize r
  /\ len (http.Method r) + len (http.Proto r) + len (http.Host r)
     <= computeApproximateRequestSize r.
Proof.
  intros Hcl Hrange.
  rewrite computeApproximateRequestSize_wrap, (int_wrap_id _ Hrange).
  unfold requestSizeSum.
  assert (0 <= contentLengthPart r).
  { unfold contentLengthPart. destruct (Z.eqb_spec (http.ContentLength r) (-1)); lia. }
  assert (0 <= pathLen r).
  { unfold pathLen. destruct (http.URL r); [apply len_nonneg | lia]. }
  pose proof (len_nonneg (http.Method r)). pose proof (len_nonneg (http.Proto r)).
  pose proof (len_nonneg (http.Host r)).
  pose proof (headersLen_nonneg (map_to_list (http.Header r))).
  lia.
Qed.

Lemma computeApproximateRequestSize_bounds_witness :
  0 <= computeApproximateRequestSize twoHeaderRequest.
Proof.
  apply (computeApproximateRequestSize_bounds twoHeaderRequest).
  - simpl. lia.
  - unfold in_int. vm_compute. split; [discriminate | reflexivity].
Defined.

(** ** The bucket boundaries *)

(** The boundaries of the two size histograms are the ten byte counts 1 KiB,
    2 KiB, 5 KiB, 10 KiB, 100 KiB, 500 KiB, 1 MiB, 2.5 MiB, 5 MiB and 10 MiB,
    and they increase strictly. *)
Theorem sizeBuckets_increasing :
  Forall2 Qeq sizeBuckets (map inject_Z bucketBytes)
  /\ StronglySorted Qlt sizeBuckets.
Proof.
  split.
  - unfold sizeBuckets, bucketBytes. simpl.
    repeat (constructor; [vm_compute; reflexivity|]). constructor.
  - unfold sizeBuckets.
    repeat (apply SSorted_cons;
            [|repeat (constructor; [vm_compute; reflexivity|]); constructor]).
    apply SSorted_nil.
Qed.

(** ** When the handler fails *)



(** ** What the handler leaves behind *)



(** ** What is measured *)

(** For a measured request the four calls are, in this order: [Add] of 1 on
    the counter [requests_total]; [Record] on the histogram
    [request_size_bytes] of the approximate size of the request as it was
    before the wrapped handler ran; [Record] on [response_size_bytes] of the
    size the response has after the handler; [Record] on
    [request_duration_seconds] of the time between the two readings of the
    clock, divided by a second.  The size histograms were asked for with the
    boundaries [sizeBuckets], the duration histogram without boundaries.  All
    four calls pass the [context.Context] of the request as the handler left
    it.  With the default clock, when the handler took between 0 and 2^63 - 1
    nanoseconds, the duration is the difference of the two instants. *)
Theorem measurement_values metrics conf next order w err w1 url :
  skipped conf w = false ->
  next w = Ok (err, w1) ->
  routeOf (DoNotUseRequestPathFor404 conf) (ctx w1) = Ok url ->
  exists (w2 : World) (attrs : list attribute.KeyValue) (elapsed : time.Duration),
    handlerOf metrics conf next order w = Ok (err, w2)
    /\ sink w2
       = (sink w1 ++
          [metric.Add
             (metric.Int64Counter metrics "requests_total"
                "How many HTTP requests processed, partitioned by status code and HTTP method.").1
             (http.Context (echo.Request (ctx w1))) 1 attrs;
           metric.Record_
             (metric.Float64Histogram metrics "request_size_bytes"
                "The HTTP request sizes in bytes." (Some sizeBuckets)).1
             (http.Context (echo.Request (ctx w1)))
             (float64_of_int (computeApproximateRequestSize (echo.Request (ctx w))))
             attrs;
           metric.Record_
             (metric.Float64Histogram metrics "response_size_bytes"
                "The HTTP response sizes in bytes." (Some sizeBuckets)).1
             (http.Context (echo.Request (ctx w1)))
             (float64_of_int (echo.Size (echo.Response_ (ctx w1))))
             attrs;
           metric.Record_
             (metric.Float64Histogram metrics "request_duration_seconds"
                "The HTTP request latencies in seconds." None).1
             (http.Context (echo.Request (ctx w1)))
             (float64_div (float64_of_int elapsed) (float64_of_int 1000000000))
             attrs])%list
    /\ elapsed = time.Sub (clockOf conf w1) (clockOf conf w)
    /\ (timeNow conf = None -> 0 <= now w1 - now w < 2 ^ 63 ->
        elapsed = now w1 - now w).
Proof.
  intros Hskip Hnext Hroute. eexists _, _, _.
  split; [apply (handlerOf_run _ _ _ _ _ _ _ _ Hskip Hnext Hroute)|].
  split; [reflexivity|]. split; [reflexivity|].
  intros Hclock Hrange. unfold clockOf, time_Now, time.Sub. rewrite Hclock. lia.
Qed.

Lemma measurement_values_witness :
  exists (w2 : World) (attrs : list attribute.KeyValue),
    handlerOf sampleMeter sampleConfig (sampleHandler sampleError)
      (map_to_list (LabelFuncs sampleConfig)) sampleWorld = Ok (sampleError, w2)
    /\ sink w2 !! 1%nat
       = Some (metric.Record_
                 (metric.Float64Histogram sampleMeter "request_size_bytes"
                    "The HTTP request sizes in bytes." (Some sizeBuckets)).1
                 0%nat (float64_of_int 16) attrs).
Proof.
  edestruct (measurement_values sampleMeter sampleConfig (sampleHandler sampleError)
               (map_to_list (LabelFuncs sampleConfig)) sampleWorld)
    as (w2 & attrs & elapsed & Hrun & Hsink & _);
    [reflexivity | reflexivity | reflexivity |].
  exists w2, attrs. split; [exact Hrun|]. rewrite Hsink. reflexivity.
Defined.

(** ** More on the attributes *)



Lemma statusOf_error cx e :
  statusOf cx (Some e) <> 0 /\ statusOf cx (Some e) <> http.StatusOK.
Proof.
  unfold statusOf, http.StatusOK, http.StatusInternalServerError.
  destruct (errors.As e) as [he|].
  - destruct (Z.eqb_spec (Code he) 0), (Z.eqb_spec (Code he) 200); simpl; lia.
  - destruct (Z.eqb_spec (echo.Status (echo.Response_ cx)) 0),
      (Z.eqb_spec (echo.Status (echo.Response_ cx)) 200); simpl; lia.
Qed.

(** When the wrapped handler returns an error, the status the measurements
    carry under both status keys is never 0 and never 200, whatever the
    response status and whatever code the error holds. *)
Theorem error_status_never_ok metrics conf next order w (e : error) w1 url :
  skipped conf w = false ->
  next w = Ok (Some e, w1) ->
  routeOf (DoNotUseRequestPathFor404 conf) (ctx w1) = Ok url ->
  exists (w2 : World) (attrs : list attribute.KeyValue) (status : Z),
    handlerOf metrics conf next order w = Ok (Some e, w2)
    /\ sink w2 = (sink w1 ++ measurementsOf metrics conf w w1 attrs)%list
    /\ attrs !! 4%nat = Some (attribute.Int semconv.HTTPStatusCodeKey status)
    /\ attrs !! 5%nat = Some (semconv.HTTPResponseStatusCode status)
    /\ status <> 0 /\ status <> 200.
Proof.
  intros Hskip Hnext Hroute. eexists _, _, _.
  split; [apply (handlerOf_run _ _ _ _ _ _ _ _ Hskip Hnext Hroute)|].
  split; [reflexivity|]. split; [reflexivity|]. split; [reflexivity|].
  apply statusOf_error.
Qed.

Lemma error_status_never_ok_witness :
  exists (w2 : World) (status : Z),
    handlerOf sampleMeter sampleConfig
      (sampleHandler (Some (httpError (NewHTTPError 200 "odd" None))))
      (map_to_list (LabelFuncs sampleConfig)) sampleWorld
    = Ok (Some (httpError (NewHTTPError 200 "odd" None)), w2)
    /\ status <> 200.
Proof.
  edestruct (error_status_never_ok sampleMeter sampleConfig
               (sampleHandler (Some (httpError (NewHTTPError 200 "odd" None))))
               (map_to_list (LabelFuncs sampleConfig)) sampleWorld)
    as (w2 & attrs & status & Hrun & _ & _ & _ & _ & H200);
    [reflexivity | reflexivity | reflexivity |].
  exists w2, status. split; [exact Hrun | exact H200].
Defined.



Lemma isASCII_valid s : isASCII s = true -> utf8.ValidString s = true.
Proof.
  induction s as [|ch s IH]; [reflexivity|].
  simpl. intros [Hch Hs]%andb_prop.
  rewrite ValidString_ascii by exact Hch. now apply IH.
Qed.

(** A route all of whose bytes are ASCII (a route template such as
    [/users/:id], or an ASCII request path) is the value of the route
    attribute as it is. *)
Theorem ascii_route_unchanged metrics conf next order w err w1 url :
  skipped conf w = false ->
  next w = Ok (err, w1) ->
  routeOf (DoNotUseRequestPathFor404 conf) (ctx w1) = Ok url ->
  isASCII url = true ->
  exists (w2 : World) (attrs : list attribute.KeyValue),
    handlerOf metrics conf next order w = Ok (err, w2)
    /\ sink w2 = (sink w1 ++ measurementsOf metrics conf w w1 attrs)%list
    /\ attrs !! 1%nat = Some (attribute.String "http.route" url).
Proof.
  intros Hskip Hnext Hroute Hascii. eexists _, _.
  split; [apply (handlerOf_run _ _ _ _ _ _ _ _ Hskip Hnext Hroute)|].
  split; [reflexivity|].
  simpl. now rewrite (ToValidUTF8_id _ _ (isASCII_valid _ Hascii)).
Qed.

Lemma ascii_route_unchanged_witness :
  exists (w2 : World) (attrs : list attribute.KeyValue),
    handlerOf sampleMeter sampleConfig (sampleHandler sampleError)
      (map_to_list (LabelFuncs sampleConfig)) sampleWorld = Ok (sampleError, w2)
    /\ attrs !! 1%nat = Some (attribute.String "http.route" "/x")
    /\ exists w1, sink w2 = measurementsOf sampleMeter sampleConfig sampleWorld w1 attrs.
Proof.
  edestruct (ascii_route_unchanged sampleMeter sampleConfig (sampleHandler sampleError)
               (map_to_list (LabelFuncs sampleConfig)) sampleWorld)
    as (w2 & attrs & Hrun & Hsink & Hattr);
    [reflexivity | reflexivity | reflexivity | reflexivity |].
  exists w2, attrs. split; [exact Hrun|]. split; [exact Hattr | eexists; exact Hsink].
Defined.

(** ** Two middlewares around one handler *)



(** ** [NewMiddleware] *)


